(** * restaurant2: order lifecycle and loyalty ledger

    A shallow embedding of [restaurant2/models.py] and of the order
    serializers of [restaurant2/serializers.py].  The Django store is a
    record of tables (lists of rows); ORM calls become operations of a small
    state-and-exception monad over that store.  Money ([DecimalField] with
    two decimal places) is kept as an integer number of cents. *)

From Stdlib Require Import List ZArith Lia Permutation Bool.
Import ListNotations.
Open Scope Z_scope.

(** ** Data model *)

(** [Order.STATUS_CHOICES] *)
Inductive Status := PENDING | PREPARING | READY | COMPLETED | CANCELLED.

Definition status_eqb (a b : Status) : bool :=
  match a, b with
  | PENDING, PENDING | PREPARING, PREPARING | READY, READY
  | COMPLETED, COMPLETED | CANCELLED, CANCELLED => true
  | _, _ => false
  end.

Lemma status_eqb_eq a b : status_eqb a b = true <-> a = b.
Proof. destruct a, b; simpl; split; congruence. Qed.

Module Order.
Record t := mk {
    id : nat;
    restaurant : nat;
    table : option nat;
    user : option nat;
    employee : option nat;
    status : Status;
    paid : bool
  }.
End Order.

Module OrderItem.
Record t := mk {
    id : nat;
    order : nat;
    menu_item : nat;
    quantity : nat;
    employee : option nat
  }.
End OrderItem.

Module OrderStatusHistory.
Record t := mk { order : nat; status : Status }.
End OrderStatusHistory.

Module Point.
Record t := mk { user : nat; restaurant : nat; amount : Z }.
End Point.

Module MenuItem.
  (** [price] in cents: [DecimalField(max_digits=10, decimal_places=2)]. *)
Record t := mk { id : nat; restaurant : nat; price : Z }.
End MenuItem.

(** The persisted store, one list of rows per model, plus the next
    primary key handed out by [objects.create]. *)
Record db := mkdb {
  orders : list Order.t;
  order_items : list OrderItem.t;
  status_history : list OrderStatusHistory.t;
  points : list Point.t;
  menu_items : list MenuItem.t;
  next_id : nat
}.

(** ** The ORM as a state-and-exception monad *)

Inductive exn := DoesNotExist.

Definition M (A : Type) := db -> (A + exn) * db.

Definition ret {A} (a : A) : M A := fun s => (inl a, s).
Definition bind {A B} (m : M A) (f : A -> M B) : M B :=
  fun s => match m s with
           | (inl a, s') => f a s'
           | (inr e, s') => (inr e, s')
           end.
Definition raise {A} (e : exn) : M A := fun s => (inr e, s).
Definition get : M db := fun s => (inl s, s).
Definition put (s : db) : M unit := fun _ => (inl tt, s).

Notation "'let*' x := m 'in' k" := (bind m (fun x => k))
  (at level 200, x binder, m at level 100, k at level 200).
Notation "m ;; k" := (bind m (fun _ => k)) (at level 100, right associativity).

Definition set_orders (l : list Order.t) (s : db) : db :=
  mkdb l (order_items s) (status_history s) (points s) (menu_items s) (next_id s).
Definition set_order_items (l : list OrderItem.t) (s : db) : db :=
  mkdb (orders s) l (status_history s) (points s) (menu_items s) (next_id s).
Definition set_status_history (l : list OrderStatusHistory.t) (s : db) : db :=
  mkdb (orders s) (order_items s) l (points s) (menu_items s) (next_id s).
Definition set_points (l : list Point.t) (s : db) : db :=
  mkdb (orders s) (order_items s) (status_history s) l (menu_items s) (next_id s).
Definition set_next_id (n : nat) (s : db) : db :=
  mkdb (orders s) (order_items s) (status_history s) (points s) (menu_items s) n.

(** A fresh primary key. *)
Definition fresh_id : M nat :=
  fun s => (inl (next_id s), set_next_id (S (next_id s)) s).

(** [Model.save()] on a row with a primary key: UPDATE that row, or INSERT
    it when no row has that key. *)
Definition order_save (o : Order.t) : M unit :=
  fun s =>
    let l := orders s in
    if existsb (fun o' => Nat.eqb (Order.id o') (Order.id o)) l
    then (inl tt, set_orders (map (fun o' => if Nat.eqb (Order.id o') (Order.id o)
                                             then o else o') l) s)
    else (inl tt, set_orders (l ++ [o]) s).

(** [Order.objects.get(pk=...)] (also what the foreign-key access
    [instance.order] does). *)
Definition order_get (oid : nat) : M Order.t :=
  fun s => match find (fun o => Nat.eqb (Order.id o) oid) (orders s) with
           | Some o => (inl o, s)
           | None => (inr DoesNotExist, s)
           end.

(** [OrderStatusHistory.objects.create(order=..., status=...)] *)
Definition history_create (oid : nat) (st : Status) : M unit :=
  fun s => (inl tt, set_status_history
                      (status_history s ++ [OrderStatusHistory.mk oid st]) s).

(** [Point.objects.create(user=..., restaurant=..., amount=...)] *)
Definition point_create (u r : nat) (a : Z) : M unit :=
  fun s => (inl tt, set_points (points s ++ [Point.mk u r a]) s).

(** ** Ledger *)

(** Modelled from the spec: [UserModel.get_total_points] lives in
    [users/models.py], which is not part of this source tree.  The spec's
    [balance(customer, restaurant)]: the sum of the amounts of all Point
    entries of that (customer, restaurant) pair, zero when there are none. *)
Definition get_total_points (u r : nat) (s : db) : Z :=
  fold_right (fun p acc => if Nat.eqb (Point.user p) u && Nat.eqb (Point.restaurant p) r
                           then Point.amount p + acc else acc) 0 (points s).

(** [Point.add_points] *)
Definition add_points (u r : nat) (amount : Z) : M unit :=
  point_create u r amount.

(** [Point.spend_points] *)
Definition spend_points (u r : nat) (amount : Z) : M bool :=
  let* s := get in
  if Z.geb (get_total_points u r s) amount
  then point_create u r (- amount) ;; ret true
  else ret false.

(** ** TableOracle: [Table.is_available] *)

(** [not self.orders.filter(status__in=["PENDING", "PREPARING"]).exists()] *)
Definition is_available (table_id : nat) (s : db) : bool :=
  negb (existsb (fun o =>
                   match Order.table o with
                   | Some t => Nat.eqb t table_id
                   | None => false
                   end
                   && existsb (status_eqb (Order.status o)) [PENDING; PREPARING])
                (orders s)).

(** ** CostCalculator: [Order.get_total_cost] *)

(** [MenuItem.objects.get(pk=...)], as the foreign-key access
    [item.menu_item] does it. *)
Definition menu_item_get (mid : nat) (s : db) : option MenuItem.t :=
  find (fun m => Nat.eqb (MenuItem.id m) mid) (menu_items s).

(** [self.order_items.all()] *)
Definition items_of (oid : nat) (s : db) : list OrderItem.t :=
  filter (fun it => Nat.eqb (OrderItem.order it) oid) (order_items s).

(** Python's [sum] over the generator: a left fold from [0]; the first
    missing menu item raises [DoesNotExist] ([None]). *)
Fixpoint sum_costs (s : db) (acc : Z) (items : list OrderItem.t) : option Z :=
  match items with
  | [] => Some acc
  | it :: rest =>
      match menu_item_get (OrderItem.menu_item it) s with
      | Some m => sum_costs s (acc + MenuItem.price m * Z.of_nat (OrderItem.quantity it)) rest
      | None => None
      end
  end.

Definition get_total_cost (o : Order.t) (s : db) : option Z :=
  sum_costs s 0 (items_of (Order.id o) s).

(** ** Order serializers *)

(** The validated data of one entry of [items]
    ([OrderItemManageSerializer]: menu_item, quantity, employee). *)
Module OrderItemData.
Record t := mk { menu_item : nat; quantity : nat; employee : option nat }.
End OrderItemData.

(** The validated data of [OrderManageSerializer] on create; fields the
    request leaves out are [None] and take the model's default. *)
Module OrderCreateData.
Record t := mk {
    restaurant : nat;
    table : option nat;
    user : option nat;
    employee : option nat;
    status : option Status;
    paid : option bool;
    items : list OrderItemData.t
  }.
End OrderCreateData.

(** The validated data of [OrderManageSerializer] on update (a partial or
    full update); an absent key is [None].  [table] is nullable, so a
    present key carries an [option nat]. *)
Module OrderUpdateData.
Record t := mk {
    table : option (option nat);
    status : option Status;
    paid : option bool;
    items : option (list OrderItemData.t)
  }.
End OrderUpdateData.

Definition default {A} (x : option A) (d : A) : A :=
  match x with Some a => a | None => d end.

(** [Order.objects.create] with the validated data as keyword arguments: an INSERT with a fresh key. *)
Definition order_objects_create (restaurant : nat) (table user employee : option nat)
    (status : option Status) (paid : option bool) : M Order.t :=
  let* oid := fresh_id in
  let o := Order.mk oid restaurant table user employee
                    (default status PENDING) (default paid false) in
  let* s := get in
  put (set_orders (orders s ++ [o]) s) ;;
  ret o.

(** [OrderItem.objects.create(order=order, **order_item_data)] *)
Definition order_item_create (oid : nat) (d : OrderItemData.t) : M unit :=
  let* iid := fresh_id in
  let* s := get in
  put (set_order_items
         (order_items s ++ [OrderItem.mk iid oid (OrderItemData.menu_item d)
                                        (OrderItemData.quantity d)
                                        (OrderItemData.employee d)]) s).

(** [for order_item_data in order_items_data: OrderItem.objects.create(...)] *)
Fixpoint create_items (oid : nat) (ds : list OrderItemData.t) : M unit :=
  match ds with
  | [] => ret tt
  | d :: rest => order_item_create oid d ;; create_items oid rest
  end.

(** [OrderItem.objects.filter(order=instance).delete()] *)
Definition order_items_delete_for (oid : nat) : M unit :=
  let* s := get in
  put (set_order_items
         (filter (fun it => negb (Nat.eqb (OrderItem.order it) oid)) (order_items s)) s).

(** [instance.delete()] on an [OrderItem] *)
Definition order_item_delete (iid : nat) : M unit :=
  let* s := get in
  put (set_order_items
         (filter (fun it => negb (Nat.eqb (OrderItem.id it) iid)) (order_items s)) s).

(** [order.order_items.exists()] *)
Definition order_items_exists (oid : nat) : M bool :=
  let* s := get in
  ret (existsb (fun it => Nat.eqb (OrderItem.order it) oid) (order_items s)).

Definition with_status (o : Order.t) (st : Status) : Order.t :=
  Order.mk (Order.id o) (Order.restaurant o) (Order.table o) (Order.user o)
           (Order.employee o) st (Order.paid o).

(** [OrderManageSerializer.create] *)
Definition OrderManageSerializer_create (vd : OrderCreateData.t) : M Order.t :=
  let* order := order_objects_create (OrderCreateData.restaurant vd)
                  (OrderCreateData.table vd) (OrderCreateData.user vd)
                  (OrderCreateData.employee vd) (OrderCreateData.status vd)
                  (OrderCreateData.paid vd) in
  create_items (Order.id order) (OrderCreateData.items vd) ;;
  history_create (Order.id order) (Order.status order) ;;
  ret order.

(** [OrderManageSerializer.update] *)
Definition OrderManageSerializer_update (instance : Order.t) (vd : OrderUpdateData.t)
    : M Order.t :=
  let instance' :=
    Order.mk (Order.id instance) (Order.restaurant instance)
             (default (OrderUpdateData.table vd) (Order.table instance))
             (Order.user instance) (Order.employee instance)
             (default (OrderUpdateData.status vd) (Order.status instance))
             (default (OrderUpdateData.paid vd) (Order.paid instance)) in
  order_save instance' ;;
  match OrderUpdateData.items vd with
  | Some ds => order_items_delete_for (Order.id instance') ;;
               create_items (Order.id instance') ds
  | None => ret tt
  end ;;
  match OrderUpdateData.status vd with
  | Some _ => history_create (Order.id instance') (Order.status instance')
  | None => ret tt
  end ;;
  ret instance'.

(** [OrderCancelSerializer.update] *)
Definition OrderCancelSerializer_update (instance : Order.t) : M Order.t :=
  let instance' := with_status instance CANCELLED in
  order_save instance' ;;
  history_create (Order.id instance') CANCELLED ;;
  ret instance'.

(** [OrderItemCancelSerializer.update] *)
Definition OrderItemCancelSerializer_update (instance : OrderItem.t) : M OrderItem.t :=
  let* order := order_get (OrderItem.order instance) in
  order_item_delete (OrderItem.id instance) ;;
  let* remaining := order_items_exists (Order.id order) in
  (if negb remaining
   then order_save (with_status order CANCELLED) ;;
        history_create (Order.id order) CANCELLED
   else ret tt) ;;
  ret instance.

(** ** Order querysets and the read-side serializer *)

(** [OrderQuerySet.unpaid]: [self.filter(paid=False)] *)
Definition OrderQuerySet_unpaid (qs : list Order.t) : list Order.t :=
  filter (fun o => negb (Order.paid o)) qs.

(** [OrderQuerySet.by_status]: [self.filter(status=status)] *)
Definition OrderQuerySet_by_status (qs : list Order.t) (st : Status) : list Order.t :=
  filter (fun o => status_eqb (Order.status o) st) qs.

(** [OrderManager.unpaid]: [self.get_queryset().unpaid()] over all orders. *)
Definition OrderManager_unpaid (s : db) : list Order.t :=
  OrderQuerySet_unpaid (orders s).

(** [OrderSerializer.get_items]: [OrderItem.objects.filter(order=obj)].
    The rows come out here in store order; the source fixes no order (the
    query has no [order_by] and [OrderItem] no [Meta.ordering]), so only
    order-insensitive facts (up to [Permutation]) are stated about the
    listing itself. *)
Definition OrderSerializer_get_items (obj : Order.t) (s : db) : list OrderItem.t :=
  filter (fun it => Nat.eqb (OrderItem.order it) (Order.id obj)) (order_items s).

(** [OrderSerializer.get_status_history]: the [status] of each row of
    [obj.status_history.all()] (the timestamps are not modelled). *)
Definition OrderSerializer_get_status_history (obj : Order.t) (s : db) : list Status :=
  map OrderStatusHistory.status
      (filter (fun h => Nat.eqb (OrderStatusHistory.order h) (Order.id obj)) (status_history s)).

(** [OrderSerializer.get_total_cost]: [obj.get_total_cost()] *)
Definition OrderSerializer_get_total_cost (obj : Order.t) (s : db) : option Z :=
  get_total_cost obj s.

(** ** Ledger lemmas *)

Definition empty_db : db := mkdb [] [] [] [] [] 1.

Lemma fold_points_app (u r : nat) (l1 l2 : list Point.t) :
  fold_right (fun p acc => if Nat.eqb (Point.user p) u && Nat.eqb (Point.restaurant p) r
                           then Point.amount p + acc else acc) 0 (l1 ++ l2)
  = fold_right (fun p acc => if Nat.eqb (Point.user p) u && Nat.eqb (Point.restaurant p) r
                             then Point.amount p + acc else acc) 0 l1
    + fold_right (fun p acc => if Nat.eqb (Point.user p) u && Nat.eqb (Point.restaurant p) r
                               then Point.amount p + acc else acc) 0 l2.
Proof.
  induction l1 as [| p l1 IH]; simpl; [reflexivity |].
  destruct (Nat.eqb (Point.user p) u && Nat.eqb (Point.restaurant p) r); lia.
Qed.

(** Appending an entry of pair (u, r) moves the balance of that pair by
    the entry's amount. *)
Lemma get_total_points_append (u r : nat) (a : Z) (s : db) :
  get_total_points u r (set_points (points s ++ [Point.mk u r a]) s)
  = get_total_points u r s + a.
Proof.
  unfold get_total_points, set_points; simpl.
  rewrite fold_points_app; simpl.
  rewrite !Nat.eqb_refl; simpl. lia.
Qed.

Lemma spend_points_unfold (u r : nat) (amount : Z) (s : db) :
  spend_points u r amount s
  = if Z.geb (get_total_points u r s) amount
    then (inl true, set_points (points s ++ [Point.mk u r (- amount)]) s)
    else (inl false, s).
Proof.
  unfold spend_points, bind, get; simpl.
  destruct (Z.geb (get_total_points u r s) amount); reflexivity.
Qed.

(** C2: [spend_points] succeeds exactly when the balance covers the
    amount; on success it appends the single entry [-amount], on failure
    it returns [false] and leaves the whole store (so the balance and the
    Point rows) as it was. *)
Theorem spend_points_succeeds_iff_balance (u r : nat) (amount : Z) (s : db) :
  (fst (spend_points u r amount s) = inl true <-> amount <= get_total_points u r s)
  /\ (amount <= get_total_points u r s ->
      points (snd (spend_points u r amount s)) = points s ++ [Point.mk u r (- amount)])
  /\ (get_total_points u r s < amount -> spend_points u r amount s = (inl false, s)).
Proof.
  rewrite spend_points_unfold.
  destruct (Z.geb (get_total_points u r s) amount) eqn:E.
  - apply Z.geb_le in E. simpl. repeat split; [lia | lia].
  - rewrite Z.geb_leb, Z.leb_gt in E. simpl. repeat split; intros H; try discriminate H; try reflexivity; lia.
Qed.

Lemma spend_points_succeeds_iff_balance_witness :
  spend_points 1 2 15 (set_points [Point.mk 1 2 10] empty_db)
  = (inl false, set_points [Point.mk 1 2 10] empty_db).
Proof.
  apply (spend_points_succeeds_iff_balance 1 2 15 (set_points [Point.mk 1 2 10] empty_db)).
  vm_compute. reflexivity.
Defined.

(** The spec's scenario: balance 10, [spend 15] fails, no row is added. *)
Example spend_points_insufficient_example :
  let s := set_points [Point.mk 1 2 10] empty_db in
  spend_points 1 2 15 s = (inl false, s) /\ get_total_points 1 2 s = 10.
Proof. split; reflexivity. Qed.

(** C7 (counterexample): [add_points] with a non-positive amount is not
    rejected: [add_points user 1, restaurant 1, amount -5] returns normally
    and appends a Point row of amount [-5]. *)
Lemma add_points_nonpositive_accepted :
  fst (add_points 1 1 (-5) empty_db) = inl tt
  /\ points (snd (add_points 1 1 (-5) empty_db)) = [Point.mk 1 1 (-5)].
Proof. split; reflexivity. Qed.

(** C7 (amended): for every integer amount, positive or not, [add_points]
    returns normally, appends exactly one Point entry carrying that amount,
    moves the pair's balance by that amount and touches nothing else. *)
Theorem add_points_appends_any_amount (u r : nat) (amount : Z) (s : db) :
  fst (add_points u r amount s) = inl tt
  /\ points (snd (add_points u r amount s)) = points s ++ [Point.mk u r amount]
  /\ get_total_points u r (snd (add_points u r amount s)) = get_total_points u r s + amount
  /\ orders (snd (add_points u r amount s)) = orders s
  /\ order_items (snd (add_points u r amount s)) = order_items s
  /\ status_history (snd (add_points u r amount s)) = status_history s.
Proof.
  repeat split; try reflexivity.
  apply get_total_points_append.
Qed.

(** C10: [spend_points] has no positivity check: for a non-positive amount
    not above the balance it appends [-amount] and returns [true]; a
    negative amount strictly raises the balance. *)
Theorem spend_points_nonpositive_amount (u r : nat) (amount : Z) (s : db)
    (Hle0 : amount <= 0) (Hcov : amount <= get_total_points u r s) :
  fst (spend_points u r amount s) = inl true
  /\ points (snd (spend_points u r amount s)) = points s ++ [Point.mk u r (- amount)]
  /\ (amount < 0 ->
      get_total_points u r s < get_total_points u r (snd (spend_points u r amount s))).
Proof.
  rewrite spend_points_unfold.
  replace (Z.geb (get_total_points u r s) amount) with true
    by (symmetry; apply Z.geb_le; lia).
  simpl. repeat split.
  intros Hneg. rewrite get_total_points_append. lia.
Qed.

Lemma spend_points_nonpositive_amount_witness :
  (-5 <= 0 /\ -5 <= get_total_points 1 1 empty_db)
  /\ fst (spend_points 1 1 (-5) empty_db) = inl true
  /\ points (snd (spend_points 1 1 (-5) empty_db)) = points empty_db ++ [Point.mk 1 1 5]
  /\ (-5 < 0 -> get_total_points 1 1 empty_db
                < get_total_points 1 1 (snd (spend_points 1 1 (-5) empty_db))).
Proof.
  split; [split; vm_compute; discriminate |].
  apply (spend_points_nonpositive_amount 1 1 (-5) empty_db);
    vm_compute; discriminate.
Defined.

(** ** Table availability *)

(** C8: a table is unavailable exactly when some order on it is PENDING or
    PREPARING; a table whose orders are all READY, COMPLETED or CANCELLED,
    or that has no order, is available. *)
Theorem is_available_iff (table_id : nat) (s : db) :
  (is_available table_id s = false <->
   exists o, In o (orders s) /\ Order.table o = Some table_id
             /\ (Order.status o = PENDING \/ Order.status o = PREPARING))
  /\ ((forall o, In o (orders s) -> Order.table o = Some table_id ->
                 In (Order.status o) [READY; COMPLETED; CANCELLED]) ->
      is_available table_id s = true).
Proof.
  unfold is_available.
  assert (Hex : existsb (fun o =>
                   match Order.table o with
                   | Some t => Nat.eqb t table_id
                   | None => false
                   end
                   && existsb (status_eqb (Order.status o)) [PENDING; PREPARING])
                (orders s) = true <->
          exists o, In o (orders s) /\ Order.table o = Some table_id
             /\ (Order.status o = PENDING \/ Order.status o = PREPARING)).
  { rewrite existsb_exists. split.
    - intros [o [Hin Ho]]. apply andb_prop in Ho as [Ht Hst].
      exists o. split; [exact Hin |].
      destruct (Order.table o) as [t |]; [| discriminate].
      apply Nat.eqb_eq in Ht; subst t. split; [reflexivity |].
      destruct (Order.status o); simpl in Hst; auto; discriminate.
    - intros [o [Hin [Ht Hst]]]. exists o. split; [exact Hin |].
      rewrite Ht, Nat.eqb_refl. destruct Hst as [-> | ->]; reflexivity. }
  split.
  - rewrite negb_false_iff. exact Hex.
  - intros Hall. apply negb_true_iff.
    apply not_true_is_false. intros E.
    apply Hex in E as [o [Hin [Ht Hst]]].
    specialize (Hall o Hin Ht).
    destruct Hst as [Hs | Hs]; rewrite Hs in Hall; simpl in Hall;
      repeat (destruct Hall as [Hall | Hall]; [discriminate |]); contradiction.
Qed.

Lemma is_available_iff_witness :
  is_available 3 (mkdb [Order.mk 7 1 (Some 3%nat) None None PREPARING false] [] [] [] [] 8)
  = false.
Proof.
  apply (is_available_iff 3 (mkdb [Order.mk 7 1 (Some 3%nat) None None PREPARING false] [] [] [] [] 8)).
  exists (Order.mk 7 1 (Some 3%nat) None None PREPARING false).
  split; [left; reflexivity | split; [reflexivity | right; reflexivity]].
Defined.

(** ** Total cost lemmas *)

Lemma filter_permutation {A} (f : A -> bool) (l l' : list A) :
  Permutation l l' -> Permutation (filter f l) (filter f l').
Proof.
  induction 1 as [| x l l' _ IH | x y l | l l' l'' _ IH1 _ IH2]; simpl.
  - constructor.
  - destruct (f x); [constructor |]; exact IH.
  - destruct (f x), (f y); try constructor; reflexivity.
  - etransitivity; eassumption.
Qed.

Lemma sum_costs_permutation (s : db) (items items' : list OrderItem.t) :
  Permutation items items' -> forall acc, sum_costs s acc items = sum_costs s acc items'.
Proof.
  induction 1 as [| x l l' _ IH | x y l | l l' l'' _ IH1 _ IH2]; intros acc; simpl.
  - reflexivity.
  - destruct (menu_item_get (OrderItem.menu_item x) s); [apply IH | reflexivity].
  - destruct (menu_item_get (OrderItem.menu_item y) s) as [my |],
             (menu_item_get (OrderItem.menu_item x) s) as [mx |]; try reflexivity.
    f_equal. lia.
  - rewrite IH1. apply IH2.
Qed.

Lemma sum_costs_menu (s1 s2 : db) (items : list OrderItem.t) :
  menu_items s1 = menu_items s2 -> forall acc, sum_costs s1 acc items = sum_costs s2 acc items.
Proof.
  intros Hm. induction items as [| it rest IH]; intros acc; simpl; [reflexivity |].
  unfold menu_item_get. rewrite Hm.
  destruct (find _ (menu_items s2)); [apply IH | reflexivity].
Qed.

(** The cost of one line: [item.menu_item.price * item.quantity]. *)
Definition line_cost (s : db) (it : OrderItem.t) (c : Z) : Prop :=
  exists m, menu_item_get (OrderItem.menu_item it) s = Some m
            /\ c = MenuItem.price m * Z.of_nat (OrderItem.quantity it).

Lemma sum_costs_literal (s : db) (items : list OrderItem.t) :
  forall acc t, sum_costs s acc items = Some t <->
  exists cs, Forall2 (line_cost s) items cs /\ t = acc + fold_right Z.add 0 cs.
Proof.
  induction items as [| it rest IH]; intros acc t; simpl.
  - split.
    + intros H; injection H as <-. exists []. split; [constructor | simpl; lia].
    + intros [cs [Hf ->]]. inversion Hf; subst. simpl. f_equal. lia.
  - destruct (menu_item_get (OrderItem.menu_item it) s) as [m |] eqn:Em.
    + rewrite IH. split.
      * intros [cs [Hf ->]].
        exists (MenuItem.price m * Z.of_nat (OrderItem.quantity it) :: cs).
        split; [constructor; [exists m; split; auto | exact Hf] | simpl; lia].
      * intros [cs [Hf ->]]. inversion Hf as [| ? c ? cs' [m' [Hm' ->]] Hf']; subst.
        rewrite Em in Hm'. injection Hm' as <-.
        exists cs'. split; [exact Hf' | simpl; lia].
    + split; [discriminate |].
      intros [cs [Hf _]]. inversion Hf as [| ? c ? cs' [m' [Hm' _]] _]; subst.
      rewrite Em in Hm'. discriminate.
Qed.

Definition menu_item_sample (mid : nat) (cents : Z) : MenuItem.t :=
  MenuItem.mk mid 1 cents.

(** An order (id 7) with 2 x 8.50 and 1 x 3.25. *)
Definition cost_example_db : db :=
  mkdb [] [OrderItem.mk 1 7 1 2 None; OrderItem.mk 2 7 2 1 None] [] []
       [menu_item_sample 1 850; menu_item_sample 2 325] 3.

Definition cost_example_order : Order.t := Order.mk 7 1 None None None PENDING false.

(** C6: the total is the same whatever order the rows come back in, and
    it is the literal sum of [price * quantity] (in cents, so exactly two
    decimal places) over the order's items, read at the menu items'
    current prices. *)
Theorem get_total_cost_sum_perm (s : db) (o : Order.t) :
  (forall items', Permutation (order_items s) items' ->
     get_total_cost o (set_order_items items' s) = get_total_cost o s)
  /\ (forall t, get_total_cost o s = Some t <->
       exists cs, Forall2 (line_cost s) (items_of (Order.id o) s) cs
                  /\ t = fold_right Z.add 0 cs).
Proof.
  split.
  - intros items' Hp. unfold get_total_cost, items_of.
    rewrite (sum_costs_menu (set_order_items items' s) s) by reflexivity.
    symmetry. apply sum_costs_permutation. apply filter_permutation. exact Hp.
  - intros t. unfold get_total_cost. rewrite sum_costs_literal.
    split; intros [cs [Hf Ht]]; exists cs; split; auto; lia.
Qed.

Lemma get_total_cost_sum_perm_witness :
  get_total_cost cost_example_order cost_example_db = Some 2025
  /\ get_total_cost cost_example_order
       (set_order_items [OrderItem.mk 2 7 2 1 None; OrderItem.mk 1 7 1 2 None]
                        cost_example_db) = Some 2025.
Proof.
  split; [reflexivity |].
  rewrite (proj1 (get_total_cost_sum_perm cost_example_db cost_example_order)).
  - reflexivity.
  - apply perm_swap.
Defined.

(** ** Frame lemmas for the order serializers *)

(** Creating item rows touches only [order_items] and [next_id]. *)
Lemma create_items_frame (oid : nat) (ds : list OrderItemData.t) (s : db) :
  exists s', create_items oid ds s = (inl tt, s')
             /\ orders s' = orders s /\ status_history s' = status_history s
             /\ points s' = points s /\ menu_items s' = menu_items s.
Proof.
  revert s. induction ds as [| d rest IH]; intros s.
  - exists s. repeat split.
  - simpl. unfold bind at 1, order_item_create, bind, fresh_id, get, put; simpl.
    destruct (IH (set_order_items
                    (order_items s ++ [OrderItem.mk (next_id s) oid
                                         (OrderItemData.menu_item d)
                                         (OrderItemData.quantity d)
                                         (OrderItemData.employee d)])
                    (set_next_id (S (next_id s)) s)))
      as [s' [Hrun [Ho [Hh [Hp Hm]]]]].
    exists s'. rewrite Hrun. repeat split; assumption.
Qed.

Definition updated_instance (instance : Order.t) (vd : OrderUpdateData.t) : Order.t :=
  Order.mk (Order.id instance) (Order.restaurant instance)
           (default (OrderUpdateData.table vd) (Order.table instance))
           (Order.user instance) (Order.employee instance)
           (default (OrderUpdateData.status vd) (Order.status instance))
           (default (OrderUpdateData.paid vd) (Order.paid instance)).

(** The history rows an update appends. *)
Definition update_history (instance : Order.t) (vd : OrderUpdateData.t)
    : list OrderStatusHistory.t :=
  match OrderUpdateData.status vd with
  | Some st => [OrderStatusHistory.mk (Order.id instance) st]
  | None => []
  end.

Lemma order_save_frame (o : Order.t) (s : db) :
  exists s', order_save o s = (inl tt, s')
             /\ order_items s' = order_items s /\ status_history s' = status_history s
             /\ points s' = points s /\ menu_items s' = menu_items s.
Proof.
  unfold order_save.
  destruct (existsb _ (orders s)); eexists; repeat split.
Qed.

(** What [OrderManageSerializer.update] does to the history and the
    ledger, for every instance and every validated data. *)
Lemma OrderManageSerializer_update_effect (instance : Order.t) (vd : OrderUpdateData.t)
    (s : db) :
  exists s', OrderManageSerializer_update instance vd s = (inl (updated_instance instance vd), s')
             /\ status_history s' = status_history s ++ update_history instance vd
             /\ points s' = points s
             /\ orders s' = orders (snd (order_save (updated_instance instance vd) s)).
Proof.
  destruct (order_save_frame (updated_instance instance vd) s)
    as [s1 [Hsave [Hi1 [Hh1 [Hp1 _]]]]].
  unfold OrderManageSerializer_update. fold (updated_instance instance vd).
  unfold bind at 1. rewrite Hsave. simpl snd.
  assert (Hitems : exists s2,
    (match OrderUpdateData.items vd with
     | Some ds => order_items_delete_for (Order.id (updated_instance instance vd)) ;;
                  create_items (Order.id (updated_instance instance vd)) ds
     | None => ret tt
     end) s1 = (inl tt, s2)
    /\ orders s2 = orders s1 /\ status_history s2 = status_history s1
    /\ points s2 = points s1).
  { destruct (OrderUpdateData.items vd) as [ds |].
    - unfold bind at 1, order_items_delete_for, bind, get, put.
      destruct (create_items_frame (Order.id (updated_instance instance vd)) ds
                  (set_order_items (filter (fun it => negb (Nat.eqb (OrderItem.order it)
                                      (Order.id (updated_instance instance vd))))
                                      (order_items s1)) s1))
        as [s2 [Hrun [Ho [Hh [Hp _]]]]].
      exists s2. rewrite Hrun. repeat split; assumption.
    - exists s1. repeat split. }
  destruct Hitems as [s2 [Hrun2 [Ho2 [Hh2 Hp2]]]].
  unfold bind at 1. rewrite Hrun2.
  unfold update_history, updated_instance; simpl.
  destruct (OrderUpdateData.status vd) as [st |]; simpl.
  - eexists. split; [reflexivity |].
    simpl. rewrite Hh2, Hh1, Hp2, Hp1, Ho2. repeat split.
  - eexists. split; [reflexivity |].
    rewrite Hh2, Hh1, Hp2, Hp1, Ho2, app_nil_r. repeat split.
Qed.

(** What [OrderCancelSerializer.update] does, for every instance. *)
Lemma OrderCancelSerializer_update_effect (instance : Order.t) (s : db) :
  exists s', OrderCancelSerializer_update instance s = (inl (with_status instance CANCELLED), s')
             /\ status_history s' = status_history s
                                    ++ [OrderStatusHistory.mk (Order.id instance) CANCELLED]
             /\ points s' = points s /\ order_items s' = order_items s
             /\ orders s' = orders (snd (order_save (with_status instance CANCELLED) s)).
Proof.
  destruct (order_save_frame (with_status instance CANCELLED) s)
    as [s1 [Hsave [Hi1 [Hh1 [Hp1 _]]]]].
  unfold OrderCancelSerializer_update, bind at 1. rewrite Hsave. simpl.
  eexists. split; [reflexivity |]. simpl.
  rewrite Hh1, Hp1, Hi1. repeat split.
Qed.

Lemma find_some_existsb {A} (f : A -> bool) (l : list A) (x : A) :
  find f l = Some x -> existsb f l = true /\ f x = true.
Proof.
  induction l as [| y l IH]; simpl; [discriminate |].
  destruct (f y) eqn:Ey.
  - intros H; injection H as <-. auto.
  - intros H. destruct (IH H) as [H1 H2]. auto.
Qed.

(** Saving a row over an existing key: looking the key up afterwards
    gives the saved row. *)
Lemma find_after_save (l : list Order.t) (o : Order.t) :
  existsb (fun o' => Nat.eqb (Order.id o') (Order.id o)) l = true ->
  find (fun o' => Nat.eqb (Order.id o') (Order.id o))
       (map (fun o' => if Nat.eqb (Order.id o') (Order.id o) then o else o') l) = Some o.
Proof.
  induction l as [| y l IH]; simpl; [discriminate |].
  destruct (Nat.eqb (Order.id y) (Order.id o)) eqn:Ey; simpl.
  - rewrite Nat.eqb_refl. reflexivity.
  - rewrite Ey. exact IH.
Qed.

(** The item rows left once [instance.delete()] has run. *)
Definition items_after_delete (instance : OrderItem.t) (s : db) : list OrderItem.t :=
  filter (fun it => negb (Nat.eqb (OrderItem.id it) (OrderItem.id instance))) (order_items s).

(** What [OrderItemCancelSerializer.update] does when the item's order
    exists. *)
Lemma OrderItemCancelSerializer_update_effect (instance : OrderItem.t) (s : db) (o : Order.t) :
  find (fun o' => Nat.eqb (Order.id o') (OrderItem.order instance)) (orders s) = Some o ->
  fst (OrderItemCancelSerializer_update instance s) = inl instance
  /\ order_items (snd (OrderItemCancelSerializer_update instance s)) = items_after_delete instance s
  /\ points (snd (OrderItemCancelSerializer_update instance s)) = points s
  /\ (existsb (fun it => Nat.eqb (OrderItem.order it) (Order.id o)) (items_after_delete instance s)
        = false ->
      orders (snd (OrderItemCancelSerializer_update instance s))
        = map (fun o' => if Nat.eqb (Order.id o') (Order.id o) then with_status o CANCELLED else o')
              (orders s)
      /\ status_history (snd (OrderItemCancelSerializer_update instance s))
         = status_history s ++ [OrderStatusHistory.mk (Order.id o) CANCELLED])
  /\ (existsb (fun it => Nat.eqb (OrderItem.order it) (Order.id o)) (items_after_delete instance s)
        = true ->
      orders (snd (OrderItemCancelSerializer_update instance s)) = orders s
      /\ status_history (snd (OrderItemCancelSerializer_update instance s)) = status_history s).
Proof.
  intros Hfind.
  destruct (find_some_existsb _ _ _ Hfind) as [_ Hid]. apply Nat.eqb_eq in Hid.
  assert (Hex : existsb (fun o' => Nat.eqb (Order.id o') (Order.id o)) (orders s) = true).
  { rewrite Hid. exact (proj1 (find_some_existsb _ _ _ Hfind)). }
  unfold OrderItemCancelSerializer_update, bind, order_get, order_item_delete,
         order_items_exists, get, put, ret.
  rewrite Hfind; simpl.
  fold (items_after_delete instance s).
  destruct (existsb (fun it => Nat.eqb (OrderItem.order it) (Order.id o))
                    (items_after_delete instance s)) eqn:Erem; simpl.
  - repeat split; discriminate.
  - unfold order_save; simpl. unfold with_status at 1; simpl. rewrite Hex. simpl.
    repeat split; discriminate.
Qed.

(** What [OrderManageSerializer.create] does: the new order takes the next
    key, and one history row with its initial status is appended. *)
Lemma OrderManageSerializer_create_effect (vd : OrderCreateData.t) (s : db) :
  exists s',
    OrderManageSerializer_create vd s
      = (inl (Order.mk (next_id s) (OrderCreateData.restaurant vd) (OrderCreateData.table vd)
                       (OrderCreateData.user vd) (OrderCreateData.employee vd)
                       (default (OrderCreateData.status vd) PENDING)
                       (default (OrderCreateData.paid vd) false)), s')
    /\ status_history s' = status_history s
         ++ [OrderStatusHistory.mk (next_id s) (default (OrderCreateData.status vd) PENDING)]
    /\ points s' = points s.
Proof.
  unfold OrderManageSerializer_create, bind at 1, order_objects_create, bind, fresh_id,
         get, put, ret; simpl.
  match goal with
  | |- context [create_items ?oid ?ds ?s0] =>
      destruct (create_items_frame oid ds s0) as [s1 [Hrun [_ [Hh [Hp _]]]]];
      rewrite Hrun
  end.
  unfold history_create; simpl.
  eexists. split; [reflexivity |]. simpl. rewrite Hh, Hp. split; reflexivity.
Qed.

(** ** Sample store for the order lifecycle *)

(** Order 7 of restaurant 1 at table 3, placed by customer 1, with the
    two lines of [cost_example_db]. *)
Definition sample_order (st : Status) : Order.t :=
  Order.mk 7 1 (Some 3%nat) (Some 1%nat) None st false.

Definition lifecycle_db (st : Status) (items : list OrderItem.t) : db :=
  mkdb [sample_order st] items [OrderStatusHistory.mk 7 PENDING] []
       [menu_item_sample 1 850; menu_item_sample 2 325] 3.

Definition two_items : list OrderItem.t :=
  [OrderItem.mk 1 7 1 2 None; OrderItem.mk 2 7 2 1 None].

Definition no_change : OrderUpdateData.t := OrderUpdateData.mk None None None None.

Definition set_status_request (st : Status) : OrderUpdateData.t :=
  OrderUpdateData.mk None (Some st) None None.

Definition sample_create (table : option nat) (status : option Status) : OrderCreateData.t :=
  OrderCreateData.mk 1 table (Some 1%nat) None status None
    [OrderItemData.mk 1 2 None; OrderItemData.mk 2 1 None].

(** The number of history rows of an order. *)
Definition history_count (oid : nat) (s : db) : nat :=
  length (filter (fun h => Nat.eqb (OrderStatusHistory.order h) oid) (status_history s)).

Lemma history_count_append (oid : nat) (st : Status) (s s' : db) :
  status_history s' = status_history s ++ [OrderStatusHistory.mk oid st] ->
  history_count oid s' = S (history_count oid s).
Proof.
  intros H. unfold history_count. rewrite H, filter_app, length_app. simpl.
  rewrite Nat.eqb_refl. simpl. lia.
Qed.

Lemma filter_all_false {A} (f : A -> bool) (l : list A) :
  (forall x, In x l -> f x = false) -> filter f l = [].
Proof.
  induction l as [| x l IH]; intros H; simpl; [reflexivity |].
  rewrite (H x (or_introl eq_refl)). apply IH. intros y Hy. apply H. right. exact Hy.
Qed.

(** ** Status history *)

(** C9: an update appends exactly one history row, with the requested
    status, whenever the request carries a status (also when it equals the
    current one), and none when it does not, whatever it does to the
    table, the paid flag or the items. *)
Theorem OrderManageSerializer_update_history_iff_status
    (instance : Order.t) (vd : OrderUpdateData.t) (s : db) :
  fst (OrderManageSerializer_update instance vd s) = inl (updated_instance instance vd)
  /\ (forall st, OrderUpdateData.status vd = Some st ->
        status_history (snd (OrderManageSerializer_update instance vd s))
        = status_history s ++ [OrderStatusHistory.mk (Order.id instance) st])
  /\ (OrderUpdateData.status vd = None ->
        status_history (snd (OrderManageSerializer_update instance vd s)) = status_history s).
Proof.
  destruct (OrderManageSerializer_update_effect instance vd s) as [s' [Hrun [Hh _]]].
  rewrite Hrun. simpl. unfold update_history in Hh.
  split; [reflexivity | split].
  - intros st Hst. rewrite Hst in Hh. exact Hh.
  - intros Hst. rewrite Hst, app_nil_r in Hh. exact Hh.
Qed.

Lemma OrderManageSerializer_update_history_iff_status_witness :
  status_history (snd (OrderManageSerializer_update (sample_order READY)
                         (set_status_request READY) (lifecycle_db READY two_items)))
  = status_history (lifecycle_db READY two_items)
    ++ [OrderStatusHistory.mk (Order.id (sample_order READY)) READY].
Proof.
  apply (OrderManageSerializer_update_history_iff_status (sample_order READY)
           (set_status_request READY) (lifecycle_db READY two_items)).
  reflexivity.
Defined.

(** C4 (counterexample): [status] is a writable field of
    [OrderManageSerializer], so a create request carrying [status READY]
    records READY, not PENDING, as the order's first history row. *)
Lemma create_with_status_records_it :
  status_history
    (snd (OrderManageSerializer_create
            (OrderCreateData.mk 1 None None None (Some READY) None [])
            empty_db))
  = [OrderStatusHistory.mk 1 READY].
Proof. reflexivity. Qed.

(** C4 (amended): right after creation the order has exactly one history
    row, carrying its initial status (PENDING unless the request gives a
    status); every status change appends exactly one row with the new
    status, so the order's count grows by one: an update carrying a status,
    a cancel, and an item cancel that removes the order's last item. *)
Theorem order_history_create_and_changes (vd : OrderCreateData.t) (s : db)
    (Hfresh : forall h, In h (status_history s) -> (OrderStatusHistory.order h < next_id s)%nat) :
  (exists o, fst (OrderManageSerializer_create vd s) = inl o
     /\ Order.status o = default (OrderCreateData.status vd) PENDING
     /\ filter (fun h => Nat.eqb (OrderStatusHistory.order h) (Order.id o))
               (status_history (snd (OrderManageSerializer_create vd s)))
        = [OrderStatusHistory.mk (Order.id o) (Order.status o)])
  /\ (forall instance vd' st, OrderUpdateData.status vd' = Some st ->
        status_history (snd (OrderManageSerializer_update instance vd' s))
        = status_history s ++ [OrderStatusHistory.mk (Order.id instance) st]
        /\ history_count (Order.id instance) (snd (OrderManageSerializer_update instance vd' s))
           = S (history_count (Order.id instance) s))
  /\ (forall instance,
        status_history (snd (OrderCancelSerializer_update instance s))
        = status_history s ++ [OrderStatusHistory.mk (Order.id instance) CANCELLED]
        /\ history_count (Order.id instance) (snd (OrderCancelSerializer_update instance s))
           = S (history_count (Order.id instance) s))
  /\ (forall item o,
        find (fun o' => Nat.eqb (Order.id o') (OrderItem.order item)) (orders s) = Some o ->
        existsb (fun it => Nat.eqb (OrderItem.order it) (Order.id o)) (items_after_delete item s)
          = false ->
        status_history (snd (OrderItemCancelSerializer_update item s))
        = status_history s ++ [OrderStatusHistory.mk (Order.id o) CANCELLED]
        /\ history_count (Order.id o) (snd (OrderItemCancelSerializer_update item s))
           = S (history_count (Order.id o) s)).
Proof.
  split; [| split; [| split]].
  - destruct (OrderManageSerializer_create_effect vd s) as [s' [Hrun [Hh _]]].
    rewrite Hrun. eexists. split; [reflexivity |]. simpl. split; [reflexivity |].
    rewrite Hh, filter_app. simpl. rewrite Nat.eqb_refl.
    rewrite filter_all_false; [reflexivity |].
    intros h Hin. apply Nat.eqb_neq. specialize (Hfresh h Hin). lia.
  - intros instance vd' st Hst.
    destruct (OrderManageSerializer_update_effect instance vd' s) as [s' [Hrun [Hh _]]].
    rewrite Hrun. simpl. unfold update_history in Hh. rewrite Hst in Hh.
    split; [exact Hh | eapply history_count_append; exact Hh].
  - intros instance.
    destruct (OrderCancelSerializer_update_effect instance s) as [s' [Hrun [Hh _]]].
    rewrite Hrun. simpl. split; [exact Hh | eapply history_count_append; exact Hh].
  - intros item o Hfind Hempty.
    destruct (OrderItemCancelSerializer_update_effect item s o Hfind) as [_ [_ [_ [Hnone _]]]].
    destruct (Hnone Hempty) as [_ Hh].
    split; [exact Hh | eapply history_count_append; exact Hh].
Qed.

(** A store already holding order 7 (key counter at 8) with its history. *)
Definition seeded_db : db :=
  mkdb [sample_order PENDING] two_items [OrderStatusHistory.mk 7 PENDING] []
       [menu_item_sample 1 850; menu_item_sample 2 325] 8.

Lemma order_history_create_and_changes_witness :
  exists o, fst (OrderManageSerializer_create (sample_create (Some 3%nat) None) seeded_db) = inl o
     /\ Order.status o = PENDING
     /\ filter (fun h => Nat.eqb (OrderStatusHistory.order h) (Order.id o))
               (status_history (snd (OrderManageSerializer_create
                   (sample_create (Some 3%nat) None) seeded_db)))
        = [OrderStatusHistory.mk (Order.id o) (Order.status o)].
Proof.
  refine (proj1 (order_history_create_and_changes (sample_create (Some 3%nat) None) seeded_db _)).
  intros h [<- | []]. simpl. lia.
Defined.

(** ** Item cancellation *)

(** C5: cancelling an item deletes it; when the order then has no item
    left, the order's row becomes CANCELLED (all its other fields, the
    paid flag included, kept) and one CANCELLED history row is appended;
    otherwise the order rows and the history are untouched. *)
Theorem OrderItemCancelSerializer_update_cascade (instance : OrderItem.t) (s : db) (o : Order.t)
    (Hfind : find (fun o' => Nat.eqb (Order.id o') (OrderItem.order instance)) (orders s) = Some o) :
  fst (OrderItemCancelSerializer_update instance s) = inl instance
  /\ order_items (snd (OrderItemCancelSerializer_update instance s)) = items_after_delete instance s
  /\ (existsb (fun it => Nat.eqb (OrderItem.order it) (Order.id o)) (items_after_delete instance s)
        = false ->
      find (fun o' => Nat.eqb (Order.id o') (Order.id o))
           (orders (snd (OrderItemCancelSerializer_update instance s)))
        = Some (with_status o CANCELLED)
      /\ Order.status (with_status o CANCELLED) = CANCELLED
      /\ Order.paid (with_status o CANCELLED) = Order.paid o
      /\ status_history (snd (OrderItemCancelSerializer_update instance s))
         = status_history s ++ [OrderStatusHistory.mk (Order.id o) CANCELLED])
  /\ (existsb (fun it => Nat.eqb (OrderItem.order it) (Order.id o)) (items_after_delete instance s)
        = true ->
      orders (snd (OrderItemCancelSerializer_update instance s)) = orders s
      /\ status_history (snd (OrderItemCancelSerializer_update instance s)) = status_history s).
Proof.
  destruct (OrderItemCancelSerializer_update_effect instance s o Hfind)
    as [Hres [Hitems [_ [Hnone Hsome]]]].
  split; [exact Hres | split; [exact Hitems | split; [| exact Hsome]]].
  intros Hempty. destruct (Hnone Hempty) as [Ho Hh].
  rewrite Ho. split; [| split; [reflexivity | split; [reflexivity | exact Hh]]].
  destruct (find_some_existsb _ _ _ Hfind) as [Hex Hid].
  apply Nat.eqb_eq in Hid. rewrite <- Hid in Hex.
  exact (find_after_save (orders s) (with_status o CANCELLED) Hex).
Qed.

Lemma OrderItemCancelSerializer_update_cascade_witness :
  fst (OrderItemCancelSerializer_update (OrderItem.mk 1 7 1 2 None)
         (lifecycle_db PENDING [OrderItem.mk 1 7 1 2 None])) = inl (OrderItem.mk 1 7 1 2 None)
  /\ order_items (snd (OrderItemCancelSerializer_update (OrderItem.mk 1 7 1 2 None)
         (lifecycle_db PENDING [OrderItem.mk 1 7 1 2 None])))
     = items_after_delete (OrderItem.mk 1 7 1 2 None) (lifecycle_db PENDING [OrderItem.mk 1 7 1 2 None])
  /\ (existsb (fun it => Nat.eqb (OrderItem.order it) (Order.id (sample_order PENDING)))
        (items_after_delete (OrderItem.mk 1 7 1 2 None) (lifecycle_db PENDING [OrderItem.mk 1 7 1 2 None]))
        = false ->
      find (fun o' => Nat.eqb (Order.id o') (Order.id (sample_order PENDING)))
           (orders (snd (OrderItemCancelSerializer_update (OrderItem.mk 1 7 1 2 None)
                           (lifecycle_db PENDING [OrderItem.mk 1 7 1 2 None]))))
        = Some (with_status (sample_order PENDING) CANCELLED)
      /\ Order.status (with_status (sample_order PENDING) CANCELLED) = CANCELLED
      /\ Order.paid (with_status (sample_order PENDING) CANCELLED) = Order.paid (sample_order PENDING)
      /\ status_history (snd (OrderItemCancelSerializer_update (OrderItem.mk 1 7 1 2 None)
                                (lifecycle_db PENDING [OrderItem.mk 1 7 1 2 None])))
         = status_history (lifecycle_db PENDING [OrderItem.mk 1 7 1 2 None])
           ++ [OrderStatusHistory.mk (Order.id (sample_order PENDING)) CANCELLED])
  /\ (existsb (fun it => Nat.eqb (OrderItem.order it) (Order.id (sample_order PENDING)))
        (items_after_delete (OrderItem.mk 1 7 1 2 None) (lifecycle_db PENDING [OrderItem.mk 1 7 1 2 None]))
        = true ->
      orders (snd (OrderItemCancelSerializer_update (OrderItem.mk 1 7 1 2 None)
                     (lifecycle_db PENDING [OrderItem.mk 1 7 1 2 None])))
      = orders (lifecycle_db PENDING [OrderItem.mk 1 7 1 2 None])
      /\ status_history (snd (OrderItemCancelSerializer_update (OrderItem.mk 1 7 1 2 None)
                                (lifecycle_db PENDING [OrderItem.mk 1 7 1 2 None])))
         = status_history (lifecycle_db PENDING [OrderItem.mk 1 7 1 2 None])).
Proof.
  apply OrderItemCancelSerializer_update_cascade. reflexivity.
Defined.

(** The spec's scenario: an order with one item; cancelling it leaves the
    order CANCELLED with the history PENDING, CANCELLED. *)
Example cancel_last_item_example :
  orders (snd (OrderItemCancelSerializer_update (OrderItem.mk 1 7 1 2 None)
                 (lifecycle_db PENDING [OrderItem.mk 1 7 1 2 None])))
    = [sample_order CANCELLED]
  /\ status_history (snd (OrderItemCancelSerializer_update (OrderItem.mk 1 7 1 2 None)
                            (lifecycle_db PENDING [OrderItem.mk 1 7 1 2 None])))
    = [OrderStatusHistory.mk 7 PENDING; OrderStatusHistory.mk 7 CANCELLED].
Proof. split; reflexivity. Qed.

(** ** Loyalty award on completion *)

(** C3 (counterexample): order 7 of customer 1 at restaurant 1, total
    20.25, is set to COMPLETED; the customer's balance there stays 0. *)
Lemma completing_order_awards_no_points :
  get_total_cost (sample_order READY) (lifecycle_db READY two_items) = Some 2025
  /\ get_total_points 1 1 (lifecycle_db READY two_items) = 0
  /\ get_total_points 1 1
       (snd (OrderManageSerializer_update (sample_order READY) (set_status_request COMPLETED)
               (lifecycle_db READY two_items))) = 0.
Proof. repeat split; reflexivity. Qed.

(** C3 (amended): no order operation touches the ledger: an update (also
    one setting COMPLETED on an order with a customer), a cancel and an
    item cancel leave every Point row as it was. *)
Theorem order_operations_leave_points (s : db) :
  (forall instance vd, points (snd (OrderManageSerializer_update instance vd s)) = points s)
  /\ (forall instance, points (snd (OrderCancelSerializer_update instance s)) = points s)
  /\ (forall item, points (snd (OrderItemCancelSerializer_update item s)) = points s).
Proof.
  split; [| split].
  - intros instance vd.
    destruct (OrderManageSerializer_update_effect instance vd s) as [s' [Hrun [_ [Hp _]]]].
    rewrite Hrun. exact Hp.
  - intros instance.
    destruct (OrderCancelSerializer_update_effect instance s) as [s' [Hrun [_ [Hp _]]]].
    rewrite Hrun. exact Hp.
  - intros item.
    destruct (find (fun o' => Nat.eqb (Order.id o') (OrderItem.order item)) (orders s))
      as [o |] eqn:Hfind.
    + exact (proj1 (proj2 (proj2 (OrderItemCancelSerializer_update_effect item s o Hfind)))).
    + unfold OrderItemCancelSerializer_update, bind at 1, order_get. rewrite Hfind.
      reflexivity.
Qed.

(** ** Terminal orders *)

(** C1 (counterexample): order 7 is COMPLETED; cancelling it is not
    rejected (it becomes CANCELLED and a history row is appended), and an
    update to PENDING puts it back to PENDING. *)
Lemma completed_order_still_mutable :
  fst (OrderCancelSerializer_update (sample_order COMPLETED) (lifecycle_db COMPLETED two_items))
    = inl (sample_order CANCELLED)
  /\ status_history (snd (OrderCancelSerializer_update (sample_order COMPLETED)
                           (lifecycle_db COMPLETED two_items)))
    = [OrderStatusHistory.mk 7 PENDING; OrderStatusHistory.mk 7 CANCELLED]
  /\ orders (snd (OrderManageSerializer_update (sample_order COMPLETED) (set_status_request PENDING)
                   (lifecycle_db COMPLETED two_items)))
    = [sample_order PENDING].
Proof. repeat split; reflexivity. Qed.

(** Saving over an existing key: fetching that key afterwards gives the
    saved row. *)
Lemma order_save_then_find (n : Order.t) (s : db) :
  existsb (fun o => Nat.eqb (Order.id o) (Order.id n)) (orders s) = true ->
  find (fun o => Nat.eqb (Order.id o) (Order.id n)) (orders (snd (order_save n s))) = Some n.
Proof.
  intros Hex. unfold order_save. rewrite Hex. unfold set_orders. cbn [snd orders].
  apply find_after_save. exact Hex.
Qed.

(** C1 (amended): there is no terminal-state guard.  On a stored COMPLETED
    or CANCELLED order an update succeeds and stores the requested table,
    status and paid flag (so the order may leave the terminal state, e.g.
    back to PENDING), and appends a history row when a status is given; a
    cancel succeeds, stores the order as CANCELLED and appends a CANCELLED
    row; an item cancel on one of its items succeeds and deletes the item. *)
Theorem terminal_order_operations_proceed (o : Order.t) (s : db)
    (Hterm : Order.status o = COMPLETED \/ Order.status o = CANCELLED)
    (Hstored : find (fun o' => Nat.eqb (Order.id o') (Order.id o)) (orders s) = Some o) :
  (forall vd,
     fst (OrderManageSerializer_update o vd s) = inl (updated_instance o vd)
     /\ find (fun o' => Nat.eqb (Order.id o') (Order.id o))
             (orders (snd (OrderManageSerializer_update o vd s)))
        = Some (updated_instance o vd)
     /\ Order.table (updated_instance o vd) = default (OrderUpdateData.table vd) (Order.table o)
     /\ Order.status (updated_instance o vd) = default (OrderUpdateData.status vd) (Order.status o)
     /\ Order.paid (updated_instance o vd) = default (OrderUpdateData.paid vd) (Order.paid o)
     /\ status_history (snd (OrderManageSerializer_update o vd s))
        = status_history s ++ update_history o vd)
  /\ fst (OrderCancelSerializer_update o s) = inl (with_status o CANCELLED)
  /\ find (fun o' => Nat.eqb (Order.id o') (Order.id o))
          (orders (snd (OrderCancelSerializer_update o s)))
     = Some (with_status o CANCELLED)
  /\ Order.status (with_status o CANCELLED) = CANCELLED
  /\ status_history (snd (OrderCancelSerializer_update o s))
     = status_history s ++ [OrderStatusHistory.mk (Order.id o) CANCELLED]
  /\ (forall item, OrderItem.order item = Order.id o ->
        fst (OrderItemCancelSerializer_update item s) = inl item
        /\ order_items (snd (OrderItemCancelSerializer_update item s)) = items_after_delete item s).
Proof.
  assert (Hex : existsb (fun o' => Nat.eqb (Order.id o') (Order.id o)) (orders s) = true)
    by exact (proj1 (find_some_existsb _ _ _ Hstored)).
  split; [| split; [| split; [| split; [| split]]]].
  - intros vd.
    destruct (OrderManageSerializer_update_effect o vd s) as [s' [Hrun [Hh [_ Ho]]]].
    rewrite Hrun. simpl. rewrite Ho.
    split; [reflexivity | split; [| repeat split; exact Hh]].
    exact (order_save_then_find (updated_instance o vd) s Hex).
  - destruct (OrderCancelSerializer_update_effect o s) as [s' [Hrun _]].
    rewrite Hrun. reflexivity.
  - destruct (OrderCancelSerializer_update_effect o s) as [s' [Hrun [_ [_ [_ Ho]]]]].
    rewrite Hrun. simpl. rewrite Ho.
    exact (order_save_then_find (with_status o CANCELLED) s Hex).
  - reflexivity.
  - destruct (OrderCancelSerializer_update_effect o s) as [s' [Hrun [Hh _]]].
    rewrite Hrun. exact Hh.
  - intros item Hord.
    rewrite <- Hord in Hstored.
    destruct (OrderItemCancelSerializer_update_effect item s o Hstored) as [Hres [Hitems _]].
    split; assumption.
Qed.

Lemma terminal_order_operations_proceed_witness :
  find (fun o' => Nat.eqb (Order.id o') 7)
       (orders (snd (OrderManageSerializer_update (sample_order COMPLETED)
                       (set_status_request PENDING) (lifecycle_db COMPLETED two_items))))
    = Some (updated_instance (sample_order COMPLETED) (set_status_request PENDING))
  /\ find (fun o' => Nat.eqb (Order.id o') 7)
          (orders (snd (OrderCancelSerializer_update (sample_order COMPLETED)
                          (lifecycle_db COMPLETED two_items))))
     = Some (with_status (sample_order COMPLETED) CANCELLED).
Proof.
  destruct (terminal_order_operations_proceed (sample_order COMPLETED)
              (lifecycle_db COMPLETED two_items) (or_introl eq_refl) eq_refl)
    as [Hupd [_ [Hcan _]]].
  split; [exact (proj1 (proj2 (Hupd (set_status_request PENDING)))) | exact Hcan].
Defined.

(** * Further properties of the models and serializers *)

(** ** Ledger *)

Lemma get_total_points_append_other (u r u' r' : nat) (a : Z) (s : db) :
  (u <> u' \/ r <> r') ->
  get_total_points u' r' (set_points (points s ++ [Point.mk u r a]) s)
  = get_total_points u' r' s.
Proof.
  intros Hne. unfold get_total_points, set_points; simpl.
  rewrite fold_points_app; simpl.
  destruct (Nat.eqb u u') eqn:Eu, (Nat.eqb r r') eqn:Er; simpl; try lia.
  apply Nat.eqb_eq in Eu, Er. destruct Hne; contradiction.
Qed.

(** [add_points] and [spend_points] on one (user, restaurant) pair leave
    the balance of every other pair as it was. *)
Theorem ledger_other_pairs_untouched (u r u' r' : nat) (amount : Z) (s : db)
    (Hne : u <> u' \/ r <> r') :
  get_total_points u' r' (snd (add_points u r amount s)) = get_total_points u' r' s
  /\ get_total_points u' r' (snd (spend_points u r amount s)) = get_total_points u' r' s.
Proof.
  split.
  - apply get_total_points_append_other. exact Hne.
  - rewrite spend_points_unfold.
    destruct (Z.geb (get_total_points u r s) amount); simpl; [| reflexivity].
    apply get_total_points_append_other. exact Hne.
Qed.

Lemma ledger_other_pairs_untouched_witness :
  get_total_points 2 1 (snd (add_points 1 1 50 (set_points [Point.mk 2 1 7] empty_db))) = 7
  /\ get_total_points 2 1 (snd (spend_points 1 1 (-3) (set_points [Point.mk 2 1 7] empty_db))) = 7.
Proof.
  assert (Hne : (1 <> 2)%nat) by discriminate.
  destruct (ledger_other_pairs_untouched 1 1 2 1 50 (set_points [Point.mk 2 1 7] empty_db)
              (or_introl Hne)) as [H1 _].
  destruct (ledger_other_pairs_untouched 1 1 2 1 (-3) (set_points [Point.mk 2 1 7] empty_db)
              (or_introl Hne)) as [_ H2].
  rewrite H1, H2. split; reflexivity.
Defined.

(** [spend_points] never takes a balance below zero: a non-negative
    balance stays non-negative, whatever the amount and the outcome. *)
Theorem spend_points_keeps_balance_nonneg (u r : nat) (amount : Z) (s : db)
    (Hnonneg : 0 <= get_total_points u r s) :
  0 <= get_total_points u r (snd (spend_points u r amount s)).
Proof.
  rewrite spend_points_unfold.
  destruct (Z.geb (get_total_points u r s) amount) eqn:E; simpl; [| exact Hnonneg].
  apply Z.geb_le in E. rewrite get_total_points_append. lia.
Qed.

Lemma spend_points_keeps_balance_nonneg_witness :
  0 <= get_total_points 1 1 (snd (spend_points 1 1 10 (set_points [Point.mk 1 1 10] empty_db))).
Proof.
  apply spend_points_keeps_balance_nonneg. vm_compute. discriminate.
Defined.

(** Earning an amount and then spending the same amount succeeds whenever
    the balance was non-negative, and brings the balance back to where it
    started. *)
Theorem add_then_spend_roundtrip (u r : nat) (amount : Z) (s : db)
    (Hnonneg : 0 <= get_total_points u r s) :
  fst (spend_points u r amount (snd (add_points u r amount s))) = inl true
  /\ get_total_points u r (snd (spend_points u r amount (snd (add_points u r amount s))))
     = get_total_points u r s.
Proof.
  assert (Hadd : get_total_points u r (snd (add_points u r amount s))
                 = get_total_points u r s + amount) by apply get_total_points_append.
  set (s1 := snd (add_points u r amount s)) in *.
  rewrite spend_points_unfold.
  replace (Z.geb (get_total_points u r s1) amount) with true
    by (symmetry; apply Z.geb_le; lia).
  cbn [fst snd]. split; [reflexivity |].
  rewrite get_total_points_append. lia.
Qed.

Lemma add_then_spend_roundtrip_witness :
  fst (spend_points 1 1 25 (snd (add_points 1 1 25 empty_db))) = inl true
  /\ get_total_points 1 1 (snd (spend_points 1 1 25 (snd (add_points 1 1 25 empty_db))))
     = get_total_points 1 1 empty_db.
Proof.
  apply add_then_spend_roundtrip. vm_compute. discriminate.
Defined.

(** ** Total cost edge cases *)

Lemma sum_costs_missing (s : db) (items : list OrderItem.t) (it : OrderItem.t) :
  In it items -> menu_item_get (OrderItem.menu_item it) s = None ->
  forall acc, sum_costs s acc items = None.
Proof.
  induction items as [| x rest IH]; intros Hin Hm acc; simpl; [contradiction |].
  destruct Hin as [-> | Hin].
  - rewrite Hm. reflexivity.
  - destruct (menu_item_get (OrderItem.menu_item x) s); [apply IH; assumption | reflexivity].
Qed.

(** An order without items costs 0; an order one of whose items refers to
    a menu item that no longer exists has no total ([item.menu_item]
    raises [DoesNotExist]). *)
Theorem get_total_cost_edges (o : Order.t) (s : db) :
  (OrderSerializer_get_items o s = [] -> OrderSerializer_get_total_cost o s = Some 0)
  /\ (forall it, In it (OrderSerializer_get_items o s) ->
       menu_item_get (OrderItem.menu_item it) s = None ->
       OrderSerializer_get_total_cost o s = None).
Proof.
  unfold OrderSerializer_get_total_cost, get_total_cost, OrderSerializer_get_items, items_of.
  split.
  - intros H. rewrite H. reflexivity.
  - intros it Hin Hm. exact (sum_costs_missing s _ it Hin Hm 0).
Qed.


(** ** Helper lemmas: saved rows, created item rows *)

Lemma in_map_replace (l : list Order.t) (n : Order.t) (k : nat) (o' : Order.t) :
  In o' (map (fun o => if Nat.eqb (Order.id o) k then n else o) l) -> o' = n \/ In o' l.
Proof.
  rewrite in_map_iff. intros [o [Heq Hin]].
  destruct (Nat.eqb (Order.id o) k); [left; auto | right; subst; auto].
Qed.

Lemma in_map_replace_id (l : list Order.t) (n : Order.t) (o' : Order.t) :
  In o' (map (fun o => if Nat.eqb (Order.id o) (Order.id n) then n else o) l) ->
  Order.id o' = Order.id n -> o' = n.
Proof.
  rewrite in_map_iff. intros [o [Heq Hin]] Hid.
  destruct (Nat.eqb (Order.id o) (Order.id n)) eqn:E; [auto |].
  subst o'. apply Nat.eqb_neq in E. contradiction.
Qed.

(** Every row after [save] is the saved row or an old row. *)
Lemma order_save_rows (n : Order.t) (s : db) (o' : Order.t) :
  In o' (orders (snd (order_save n s))) -> o' = n \/ In o' (orders s).
Proof.
  unfold order_save. destruct (existsb _ (orders s)); simpl.
  - apply in_map_replace.
  - rewrite in_app_iff. intros [H | [H | []]]; [right; exact H | left; auto].
Qed.

(** Saving over an existing key leaves one version of that row: the saved
    one. *)
Lemma order_save_rows_id (n : Order.t) (s : db) (o' : Order.t) :
  existsb (fun o => Nat.eqb (Order.id o) (Order.id n)) (orders s) = true ->
  In o' (orders (snd (order_save n s))) -> Order.id o' = Order.id n -> o' = n.
Proof.
  unfold order_save. intros Hex. rewrite Hex. simpl. apply in_map_replace_id.
Qed.

Lemma order_save_existing (n : Order.t) (s : db) :
  existsb (fun o => Nat.eqb (Order.id o) (Order.id n)) (orders s) = true ->
  In n (orders (snd (order_save n s))).
Proof.
  unfold order_save. intros Hex. rewrite Hex. simpl.
  rewrite existsb_exists in Hex. destruct Hex as [o [Hin Hid]].
  apply in_map_iff. exists o. rewrite Hid. auto.
Qed.

(** A table is blocked exactly by a PENDING or PREPARING order on it. *)
Definition blocks (table_id : nat) (o : Order.t) : Prop :=
  Order.table o = Some table_id /\ (Order.status o = PENDING \/ Order.status o = PREPARING).

Lemma is_available_false_blocks (table_id : nat) (s : db) :
  is_available table_id s = false <-> exists o, In o (orders s) /\ blocks table_id o.
Proof.
  unfold is_available, blocks. rewrite negb_false_iff, existsb_exists.
  split.
  - intros [o [Hin Ho]]. exists o. split; [exact Hin |].
    apply andb_prop in Ho as [Ht Hst].
    destruct (Order.table o) as [t |]; [| discriminate].
    apply Nat.eqb_eq in Ht. subst t. split; [reflexivity |].
    destruct (Order.status o); simpl in Hst; try discriminate; auto.
  - intros [o [Hin [Ht Hst]]]. exists o. split; [exact Hin |].
    rewrite Ht, Nat.eqb_refl. destruct Hst as [-> | ->]; reflexivity.
Qed.

(** The request line an item row carries. *)
Definition item_line (it : OrderItem.t) : nat * nat * option nat :=
  (OrderItem.menu_item it, OrderItem.quantity it, OrderItem.employee it).

Definition data_line (d : OrderItemData.t) : nat * nat * option nat :=
  (OrderItemData.menu_item d, OrderItemData.quantity d, OrderItemData.employee d).

(** [create_items] appends one row per request line, in order, all of
    them rows of the given order. *)
Lemma create_items_rows (oid : nat) (ds : list OrderItemData.t) (s : db) :
  exists new,
    order_items (snd (create_items oid ds s)) = order_items s ++ new
    /\ map item_line new = map data_line ds
    /\ (forall it, In it new -> OrderItem.order it = oid)
    /\ fst (create_items oid ds s) = inl tt
    /\ orders (snd (create_items oid ds s)) = orders s
    /\ menu_items (snd (create_items oid ds s)) = menu_items s.
Proof.
  revert s. induction ds as [| d rest IH]; intros s.
  - exists []. simpl. rewrite app_nil_r. repeat split; intros it [].
  - simpl. unfold bind at 1, order_item_create, bind, fresh_id, get, put; simpl.
    set (row := OrderItem.mk (next_id s) oid (OrderItemData.menu_item d)
                  (OrderItemData.quantity d) (OrderItemData.employee d)).
    destruct (IH (set_order_items (order_items s ++ [row]) (set_next_id (S (next_id s)) s)))
      as [new [Hi [Hl [Ho [Hr [Hos Hm]]]]]].
    exists (row :: new).
    destruct (create_items oid rest
                (set_order_items (order_items s ++ [row]) (set_next_id (S (next_id s)) s)))
      as [res s'] eqn:E.
    simpl in *. subst res.
    rewrite Hi, <- app_assoc. simpl.
    repeat split; try assumption; try reflexivity.
    + simpl. rewrite Hl. reflexivity.
    + intros it [<- | Hin]; [reflexivity | apply Ho; exact Hin].
Qed.

(** What [OrderManageSerializer.update] does to the item rows. *)
Lemma OrderManageSerializer_update_items (instance : Order.t) (vd : OrderUpdateData.t) (s : db) :
  menu_items (snd (OrderManageSerializer_update instance vd s)) = menu_items s
  /\ (OrderUpdateData.items vd = None ->
      order_items (snd (OrderManageSerializer_update instance vd s)) = order_items s)
  /\ (forall ds, OrderUpdateData.items vd = Some ds ->
      exists new,
        order_items (snd (OrderManageSerializer_update instance vd s))
        = filter (fun it => negb (Nat.eqb (OrderItem.order it) (Order.id instance)))
                 (order_items s) ++ new
        /\ map item_line new = map data_line ds
        /\ (forall it, In it new -> OrderItem.order it = Order.id instance)).
Proof.
  destruct (order_save_frame (updated_instance instance vd) s)
    as [s1 [Hsave [Hi1 [_ [_ Hm1]]]]].
  assert (Hitems : exists s2,
    (match OrderUpdateData.items vd with
     | Some ds => order_items_delete_for (Order.id (updated_instance instance vd)) ;;
                  create_items (Order.id (updated_instance instance vd)) ds
     | None => ret tt
     end) s1 = (inl tt, s2)
    /\ menu_items s2 = menu_items s
    /\ (OrderUpdateData.items vd = None -> order_items s2 = order_items s)
    /\ (forall ds, OrderUpdateData.items vd = Some ds ->
        exists new,
          order_items s2
          = filter (fun it => negb (Nat.eqb (OrderItem.order it) (Order.id instance)))
                   (order_items s) ++ new
          /\ map item_line new = map data_line ds
          /\ (forall it, In it new -> OrderItem.order it = Order.id instance))).
  { destruct (OrderUpdateData.items vd) as [ds |].
    - set (s2 := set_order_items
                   (filter (fun it => negb (Nat.eqb (OrderItem.order it) (Order.id instance)))
                           (order_items s1)) s1).
      destruct (create_items_rows (Order.id instance) ds s2)
        as [new [Hi [Hl [Ho [Hr [_ Hm]]]]]].
      exists (snd (create_items (Order.id instance) ds s2)).
      split.
      + unfold bind, order_items_delete_for, get, put. simpl. fold s2.
        rewrite <- Hr. destruct (create_items (Order.id instance) ds s2); reflexivity.
      + rewrite Hm. simpl. split; [exact Hm1 | split; [discriminate |]].
        intros ds' Hds. injection Hds as <-. exists new.
        rewrite Hi. simpl. rewrite Hi1. auto.
    - exists s1. split; [reflexivity |].
      split; [exact Hm1 | split; [intros _; exact Hi1 | discriminate]]. }
  destruct Hitems as [s2 [Hrun2 Hprops]].
  destruct (OrderManageSerializer_update instance vd s) as [res s'] eqn:Erun.
  unfold OrderManageSerializer_update in Erun. fold (updated_instance instance vd) in Erun.
  unfold bind at 1 in Erun. rewrite Hsave in Erun.
  unfold bind at 1 in Erun. rewrite Hrun2 in Erun.
  destruct (OrderUpdateData.status vd); simpl in Erun; injection Erun as _ <-; exact Hprops.
Qed.

Definition created_order (vd : OrderCreateData.t) (s : db) : Order.t :=
  Order.mk (next_id s) (OrderCreateData.restaurant vd) (OrderCreateData.table vd)
           (OrderCreateData.user vd) (OrderCreateData.employee vd)
           (default (OrderCreateData.status vd) PENDING)
           (default (OrderCreateData.paid vd) false).

(** What [OrderManageSerializer.create] does to the order and item rows. *)
Lemma OrderManageSerializer_create_rows (vd : OrderCreateData.t) (s : db) :
  fst (OrderManageSerializer_create vd s) = inl (created_order vd s)
  /\ orders (snd (OrderManageSerializer_create vd s)) = orders s ++ [created_order vd s]
  /\ exists new,
       order_items (snd (OrderManageSerializer_create vd s)) = order_items s ++ new
       /\ map item_line new = map data_line (OrderCreateData.items vd)
       /\ (forall it, In it new -> OrderItem.order it = next_id s).
Proof.
  set (s0 := set_orders (orders s ++ [created_order vd s]) (set_next_id (S (next_id s)) s)).
  destruct (create_items_rows (next_id s) (OrderCreateData.items vd) s0)
    as [new [Hi [Hl [Ho [Hr [Hos _]]]]]].
  destruct (OrderManageSerializer_create vd s) as [res s'] eqn:Erun.
  unfold OrderManageSerializer_create, bind at 1, order_objects_create, bind, fresh_id,
         get, put, ret in Erun; simpl in Erun.
  fold (created_order vd s) in Erun. fold s0 in Erun.
  destruct (create_items (next_id s) (OrderCreateData.items vd) s0) as [r1 s1] eqn:E1.
  simpl in Hr, Hi, Hos. subst r1.
  unfold history_create in Erun. simpl in Erun. injection Erun as <- <-.
  simpl. split; [reflexivity | split].
  - rewrite Hos. reflexivity.
  - exists new. rewrite Hi. simpl. auto.
Qed.

Lemma filter_other_order (l : list OrderItem.t) (k i : nat) :
  k <> i ->
  filter (fun it => Nat.eqb (OrderItem.order it) k)
         (filter (fun it => negb (Nat.eqb (OrderItem.order it) i)) l)
  = filter (fun it => Nat.eqb (OrderItem.order it) k) l.
Proof.
  intros Hne. induction l as [| it l IH]; simpl; [reflexivity |].
  destruct (Nat.eqb (OrderItem.order it) i) eqn:Ei; simpl.
  - apply Nat.eqb_eq in Ei. rewrite Ei.
    replace (Nat.eqb i k) with false by (symmetry; apply Nat.eqb_neq; auto).
    exact IH.
  - destruct (Nat.eqb (OrderItem.order it) k); [f_equal |]; exact IH.
Qed.

(** ** Create *)

(** Reading back a freshly created order ([OrderSerializer.get_items])
    gives exactly the requested lines, in some order (the query fixes
    none), provided no stale item row already points at the new key. *)
Theorem create_then_get_items (vd : OrderCreateData.t) (s : db)
    (Hfresh : forall it, In it (order_items s) -> OrderItem.order it <> next_id s) :
  exists o, fst (OrderManageSerializer_create vd s) = inl o
    /\ In o (orders (snd (OrderManageSerializer_create vd s)))
    /\ Permutation (map item_line (OrderSerializer_get_items o (snd (OrderManageSerializer_create vd s))))
                   (map data_line (OrderCreateData.items vd)).
Proof.
  destruct (OrderManageSerializer_create_rows vd s) as [Hres [Hos [new [Hi [Hl Ho]]]]].
  exists (created_order vd s). split; [exact Hres | split].
  - rewrite Hos. apply in_or_app. right. left. reflexivity.
  - unfold OrderSerializer_get_items. rewrite Hi, filter_app.
    rewrite filter_all_false.
    + simpl. rewrite <- Hl. apply Permutation_refl'. f_equal.
      apply forallb_filter_id. apply forallb_forall.
      intros it Hin. apply Nat.eqb_eq. apply Ho. exact Hin.
    + intros it Hin. apply Nat.eqb_neq. apply Hfresh. exact Hin.
Qed.

Lemma create_then_get_items_witness :
  exists o, fst (OrderManageSerializer_create (sample_create None None) empty_db) = inl o
    /\ In o (orders (snd (OrderManageSerializer_create (sample_create None None) empty_db)))
    /\ Permutation (map item_line (OrderSerializer_get_items o
                        (snd (OrderManageSerializer_create (sample_create None None) empty_db))))
                   (map data_line (OrderCreateData.items (sample_create None None))).
Proof.
  apply create_then_get_items. intros it [].
Defined.

(** An order created on a table with no status, or with PENDING or
    PREPARING, makes that table unavailable. *)
Theorem create_on_table_blocks_it (vd : OrderCreateData.t) (s : db) (table_id : nat)
    (Htable : OrderCreateData.table vd = Some table_id)
    (Hstatus : OrderCreateData.status vd = None \/ OrderCreateData.status vd = Some PENDING
               \/ OrderCreateData.status vd = Some PREPARING) :
  is_available table_id (snd (OrderManageSerializer_create vd s)) = false.
Proof.
  destruct (OrderManageSerializer_create_rows vd s) as [_ [Hos _]].
  apply is_available_false_blocks. exists (created_order vd s). split.
  - rewrite Hos. apply in_or_app. right. left. reflexivity.
  - unfold blocks, created_order. simpl. split; [exact Htable |].
    destruct Hstatus as [-> | [-> | ->]]; simpl; auto.
Qed.

Lemma create_on_table_blocks_it_witness :
  is_available 3 (snd (OrderManageSerializer_create (sample_create (Some 3%nat) None) empty_db))
  = false.
Proof.
  apply (create_on_table_blocks_it (sample_create (Some 3%nat) None) empty_db 3).
  - reflexivity.
  - left. reflexivity.
Defined.

(** ** Update *)

(** Updating an order that is in the store, then fetching it by key,
    gives the updated row: the requested table, status and paid flag, and
    the restaurant, customer and employee it had. *)
Theorem update_then_get (instance : Order.t) (vd : OrderUpdateData.t) (s : db)
    (Hex : existsb (fun o => Nat.eqb (Order.id o) (Order.id instance)) (orders s) = true) :
  order_get (Order.id instance) (snd (OrderManageSerializer_update instance vd s))
  = (inl (updated_instance instance vd), snd (OrderManageSerializer_update instance vd s))
  /\ Order.restaurant (updated_instance instance vd) = Order.restaurant instance
  /\ Order.user (updated_instance instance vd) = Order.user instance
  /\ Order.employee (updated_instance instance vd) = Order.employee instance.
Proof.
  split; [| repeat split].
  destruct (OrderManageSerializer_update_effect instance vd s) as [s' [Hrun [_ [_ Ho]]]].
  rewrite Hrun. simpl. unfold order_get. rewrite Ho.
  unfold order_save. change (Order.id instance) with (Order.id (updated_instance instance vd)) in *.
  rewrite Hex. unfold set_orders. cbn [snd orders].
  rewrite find_after_save by exact Hex. reflexivity.
Qed.

Lemma update_then_get_witness :
  order_get 7 (snd (OrderManageSerializer_update (sample_order PENDING)
                      (OrderUpdateData.mk None (Some READY) (Some true) None)
                      (lifecycle_db PENDING two_items)))
  = (inl (updated_instance (sample_order PENDING)
            (OrderUpdateData.mk None (Some READY) (Some true) None)),
     snd (OrderManageSerializer_update (sample_order PENDING)
            (OrderUpdateData.mk None (Some READY) (Some true) None)
            (lifecycle_db PENDING two_items))).
Proof.
  apply (update_then_get (sample_order PENDING)
           (OrderUpdateData.mk None (Some READY) (Some true) None)
           (lifecycle_db PENDING two_items)).
  reflexivity.
Defined.

(** After an update of an order in the store, [Order.objects.unpaid()]
    lists that order exactly when its resulting paid flag is false. *)
Theorem update_unpaid_listing (instance : Order.t) (vd : OrderUpdateData.t) (s : db)
    (Hex : existsb (fun o => Nat.eqb (Order.id o) (Order.id instance)) (orders s) = true) :
  (exists o', In o' (OrderManager_unpaid (snd (OrderManageSerializer_update instance vd s)))
              /\ Order.id o' = Order.id instance)
  <-> default (OrderUpdateData.paid vd) (Order.paid instance) = false.
Proof.
  destruct (OrderManageSerializer_update_effect instance vd s) as [s' [Hrun [_ [_ Ho]]]].
  rewrite Hrun. simpl. unfold OrderManager_unpaid, OrderQuerySet_unpaid. rewrite Ho.
  change (Order.id instance) with (Order.id (updated_instance instance vd)) in Hex |- *.
  split.
  - intros [o' [Hin Hid]]. apply filter_In in Hin as [Hin Hp].
    rewrite (order_save_rows_id _ _ _ Hex Hin Hid) in Hp.
    apply negb_true_iff in Hp. exact Hp.
  - intros Hp. exists (updated_instance instance vd). split; [| reflexivity].
    apply filter_In. split; [apply order_save_existing; exact Hex |].
    simpl. rewrite Hp. reflexivity.
Qed.

Lemma update_unpaid_listing_witness :
  default (OrderUpdateData.paid (OrderUpdateData.mk None None (Some true) None))
          (Order.paid (sample_order READY)) = true
  /\ ~ (exists o', In o' (OrderManager_unpaid
                           (snd (OrderManageSerializer_update (sample_order READY)
                                   (OrderUpdateData.mk None None (Some true) None)
                                   (lifecycle_db READY two_items))))
                   /\ Order.id o' = Order.id (sample_order READY)).
Proof.
  split; [reflexivity |].
  rewrite (update_unpaid_listing (sample_order READY)
             (OrderUpdateData.mk None None (Some true) None) (lifecycle_db READY two_items)
             eq_refl).
  discriminate.
Defined.

(** Replacing the items of an order ([items] in the request) makes
    [get_items] of that order the requested lines, in some order (the
    query fixes none), and leaves the item rows of every other order
    alone; without [items] no order's item rows change. *)
Theorem update_replaces_items (instance : Order.t) (vd : OrderUpdateData.t) (s : db) :
  (forall ds, OrderUpdateData.items vd = Some ds ->
     Permutation (map item_line (OrderSerializer_get_items instance (snd (OrderManageSerializer_update instance vd s))))
                 (map data_line ds))
  /\ (forall o', (OrderUpdateData.items vd = None \/ Order.id o' <> Order.id instance) ->
       OrderSerializer_get_items o' (snd (OrderManageSerializer_update instance vd s))
       = OrderSerializer_get_items o' s).
Proof.
  destruct (OrderManageSerializer_update_items instance vd s) as [_ [Hnone Hsome]].
  unfold OrderSerializer_get_items. split.
  - intros ds Hds. destruct (Hsome ds Hds) as [new [Hi [Hl Ho]]].
    rewrite Hi, filter_app, filter_all_false.
    + simpl. rewrite <- Hl. apply Permutation_refl'. f_equal. apply forallb_filter_id. apply forallb_forall.
      intros it Hin. apply Nat.eqb_eq. apply Ho. exact Hin.
    + intros it Hin. apply filter_In in Hin as [_ Hn].
      apply negb_true_iff in Hn. exact Hn.
  - intros o' [Hn | Hne].
    + rewrite (Hnone Hn). reflexivity.
    + destruct (OrderUpdateData.items vd) as [ds |] eqn:Eds; [| rewrite (Hnone eq_refl); reflexivity].
      destruct (Hsome ds eq_refl) as [new [Hi [_ Ho]]].
      rewrite Hi, filter_app.
      rewrite (filter_all_false _ new).
      * rewrite app_nil_r. apply filter_other_order. exact Hne.
      * intros it Hin. apply Nat.eqb_neq. rewrite (Ho it Hin). intros H. apply Hne. symmetry. exact H.
Qed.

Lemma update_replaces_items_witness :
  Permutation
    (map item_line (OrderSerializer_get_items (sample_order PENDING)
       (snd (OrderManageSerializer_update (sample_order PENDING)
               (OrderUpdateData.mk None None None (Some [OrderItemData.mk 2 5 None]))
               (lifecycle_db PENDING two_items)))))
    (map data_line [OrderItemData.mk 2 5 None]).
Proof.
  apply (proj1 (update_replaces_items (sample_order PENDING)
                  (OrderUpdateData.mk None None None (Some [OrderItemData.mk 2 5 None]))
                  (lifecycle_db PENDING two_items))).
  reflexivity.
Defined.

(** ** Cancel and item cancel *)

Lemma OrderItemCancelSerializer_update_not_found (item : OrderItem.t) (s : db) :
  find (fun o' => Nat.eqb (Order.id o') (OrderItem.order item)) (orders s) = None ->
  OrderItemCancelSerializer_update item s = (inr DoesNotExist, s).
Proof.
  intros Hfind. unfold OrderItemCancelSerializer_update, bind at 1, order_get.
  rewrite Hfind. reflexivity.
Qed.

Lemma OrderItemCancelSerializer_update_menu (item : OrderItem.t) (s : db) :
  menu_items (snd (OrderItemCancelSerializer_update item s)) = menu_items s.
Proof.
  destruct (find (fun o' => Nat.eqb (Order.id o') (OrderItem.order item)) (orders s))
    as [o |] eqn:Hfind.
  - destruct (OrderItemCancelSerializer_update item s) as [r s'] eqn:E.
    unfold OrderItemCancelSerializer_update, bind, order_get, order_item_delete,
           order_items_exists, get, put, ret in E.
    rewrite Hfind in E. cbn in E.
    destruct (existsb _ _); cbn in E.
    + injection E as _ <-. reflexivity.
    + unfold order_save in E. destruct (existsb _ _); cbn in E; injection E as _ <-; reflexivity.
  - rewrite (OrderItemCancelSerializer_update_not_found item s Hfind). reflexivity.
Qed.

(** Cancelling an order, or an item, never makes an available table
    unavailable. *)
Theorem cancel_never_blocks_table (table_id : nat) (s : db)
    (Havail : is_available table_id s = true) :
  (forall instance, is_available table_id (snd (OrderCancelSerializer_update instance s)) = true)
  /\ (forall item, is_available table_id (snd (OrderItemCancelSerializer_update item s)) = true).
Proof.
  assert (Hno : forall o', In o' (orders s) -> ~ blocks table_id o').
  { intros o' Hin Hb. assert (H : is_available table_id s = false).
    { apply is_available_false_blocks. exists o'. auto. }
    congruence. }
  assert (Hcan : forall o, ~ blocks table_id (with_status o CANCELLED)).
  { intros o [_ [H | H]]; discriminate H. }
  split.
  - intros instance. apply not_false_is_true. intros Hf.
    apply is_available_false_blocks in Hf as [o' [Hin Hb]].
    destruct (OrderCancelSerializer_update_effect instance s) as [s' [Hrun [_ [_ [_ Ho]]]]].
    rewrite Hrun in Hin. simpl in Hin. rewrite Ho in Hin.
    destruct (order_save_rows _ _ _ Hin) as [-> | Hold].
    + exact (Hcan instance Hb).
    + exact (Hno o' Hold Hb).
  - intros item. apply not_false_is_true. intros Hf.
    apply is_available_false_blocks in Hf as [o' [Hin Hb]].
    destruct (find (fun o' => Nat.eqb (Order.id o') (OrderItem.order item)) (orders s))
      as [o |] eqn:Hfind.
    + destruct (OrderItemCancelSerializer_update_effect item s o Hfind)
        as [_ [_ [_ [Hnone Hsome]]]].
      destruct (existsb (fun it => Nat.eqb (OrderItem.order it) (Order.id o))
                        (items_after_delete item s)) eqn:Erem.
      * rewrite (proj1 (Hsome eq_refl)) in Hin. exact (Hno o' Hin Hb).
      * rewrite (proj1 (Hnone eq_refl)) in Hin.
        destruct (in_map_replace _ _ _ _ Hin) as [-> | Hold].
        -- exact (Hcan o Hb).
        -- exact (Hno o' Hold Hb).
    + rewrite (OrderItemCancelSerializer_update_not_found item s Hfind) in Hin.
      exact (Hno o' Hin Hb).
Qed.

Lemma cancel_never_blocks_table_witness :
  is_available 3 (snd (OrderCancelSerializer_update (sample_order READY)
                         (lifecycle_db READY two_items))) = true.
Proof.
  apply (cancel_never_blocks_table 3 (lifecycle_db READY two_items)).
  reflexivity.
Defined.

Lemma sum_costs_shift (s : db) (items : list OrderItem.t) :
  forall a b, sum_costs s (a + b) items = option_map (Z.add a) (sum_costs s b items).
Proof.
  induction items as [| it rest IH]; intros a b; simpl; [reflexivity |].
  destruct (menu_item_get (OrderItem.menu_item it) s); [| reflexivity].
  rewrite <- Z.add_assoc. apply IH.
Qed.

Lemma delete_unique_item (l1 l2 : list OrderItem.t) (item : OrderItem.t) :
  NoDup (map OrderItem.id (l1 ++ item :: l2)) ->
  filter (fun it => negb (Nat.eqb (OrderItem.id it) (OrderItem.id item))) (l1 ++ item :: l2)
  = l1 ++ l2.
Proof.
  rewrite map_app. simpl. intros Hnd. apply NoDup_remove_2 in Hnd.
  rewrite filter_app. simpl. rewrite Nat.eqb_refl. simpl.
  assert (Hkeep : forall l, ~ In (OrderItem.id item) (map OrderItem.id l) ->
    filter (fun it => negb (Nat.eqb (OrderItem.id it) (OrderItem.id item))) l = l).
  { intros l Hl. apply forallb_filter_id. apply forallb_forall.
    intros it Hin. apply negb_true_iff. apply Nat.eqb_neq. intros Heq.
    apply Hl. rewrite <- Heq. apply in_map. exact Hin. }
  rewrite in_app_iff in Hnd.
  rewrite !Hkeep; auto.
Qed.

(** When item keys are unique, cancelling an item of an order lowers the
    order's total by exactly that line's [price * quantity]. *)
Theorem cancel_item_lowers_total (item : OrderItem.t) (s : db) (o : Order.t) (m : MenuItem.t)
    (Hfind : find (fun o' => Nat.eqb (Order.id o') (OrderItem.order item)) (orders s) = Some o)
    (Hin : In item (order_items s))
    (Huniq : NoDup (map OrderItem.id (order_items s)))
    (Hmenu : menu_item_get (OrderItem.menu_item item) s = Some m) :
  OrderSerializer_get_total_cost o (snd (OrderItemCancelSerializer_update item s))
  = option_map (fun t => t - MenuItem.price m * Z.of_nat (OrderItem.quantity item))
               (OrderSerializer_get_total_cost o s).
Proof.
  destruct (OrderItemCancelSerializer_update_effect item s o Hfind) as [_ [Hitems _]].
  destruct (find_some_existsb _ _ _ Hfind) as [_ Hid]. apply Nat.eqb_eq in Hid.
  unfold OrderSerializer_get_total_cost, get_total_cost, items_of.
  rewrite (sum_costs_menu _ s) by apply OrderItemCancelSerializer_update_menu.
  rewrite Hitems. unfold items_after_delete.
  apply in_split in Hin as [l1 [l2 Hl]]. rewrite Hl in Huniq |- *.
  rewrite (delete_unique_item l1 l2 item Huniq).
  set (f := fun it => Nat.eqb (OrderItem.order it) (Order.id o)).
  assert (Hperm : Permutation (filter f (l1 ++ item :: l2)) (item :: filter f (l1 ++ l2))).
  { rewrite !filter_app. simpl. unfold f at 2. rewrite Hid, Nat.eqb_refl.
    symmetry. apply Permutation_middle. }
  rewrite (sum_costs_permutation s _ _ Hperm 0). simpl. rewrite Hmenu.
  replace (sum_costs s (MenuItem.price m * Z.of_nat (OrderItem.quantity item))
             (filter f (l1 ++ l2)))
    with (sum_costs s (MenuItem.price m * Z.of_nat (OrderItem.quantity item) + 0)
             (filter f (l1 ++ l2))) by (f_equal; lia).
  rewrite sum_costs_shift.
  destruct (sum_costs s 0 (filter f (l1 ++ l2))); simpl; [f_equal; lia | reflexivity].
Qed.

Lemma cancel_item_lowers_total_witness :
  OrderSerializer_get_total_cost (sample_order PENDING)
    (snd (OrderItemCancelSerializer_update (OrderItem.mk 2 7 2 1 None)
            (lifecycle_db PENDING two_items)))
  = option_map (fun t => t - 325 * Z.of_nat 1)
      (OrderSerializer_get_total_cost (sample_order PENDING) (lifecycle_db PENDING two_items)).
Proof.
  apply (cancel_item_lowers_total (OrderItem.mk 2 7 2 1 None) (lifecycle_db PENDING two_items)
           (sample_order PENDING) (menu_item_sample 2 325)).
  - reflexivity.
  - right. left. reflexivity.
  - repeat constructor; simpl; intuition discriminate.
  - reflexivity.
Defined.

Lemma get_total_cost_edges_witness :
  OrderSerializer_get_total_cost (Order.mk 9 1 None None None PENDING false) cost_example_db
  = Some 0.
Proof.
  apply (proj1 (get_total_cost_edges (Order.mk 9 1 None None None PENDING false) cost_example_db)).
  reflexivity.
Defined.

(** An update can make an available table unavailable only through the
    updated row itself: when that row (its resulting table and status)
    does not block the table, the table stays available. *)
Theorem update_keeps_table_available (table_id : nat) (instance : Order.t)
    (vd : OrderUpdateData.t) (s : db)
    (Havail : is_available table_id s = true)
    (Hrow : ~ blocks table_id (updated_instance instance vd)) :
  is_available table_id (snd (OrderManageSerializer_update instance vd s)) = true.
Proof.
  apply not_false_is_true. intros Hf.
  apply is_available_false_blocks in Hf as [o' [Hin Hb]].
  destruct (OrderManageSerializer_update_effect instance vd s) as [s' [Hrun [_ [_ Ho]]]].
  rewrite Hrun in Hin. simpl in Hin. rewrite Ho in Hin.
  destruct (order_save_rows _ _ _ Hin) as [-> | Hold]; [exact (Hrow Hb) |].
  assert (H : is_available table_id s = false).
  { apply is_available_false_blocks. exists o'. auto. }
  congruence.
Qed.

Lemma update_keeps_table_available_witness :
  is_available 3 (snd (OrderManageSerializer_update (sample_order READY)
                         (set_status_request COMPLETED)
                         (lifecycle_db READY two_items))) = true.
Proof.
  apply update_keeps_table_available.
  - reflexivity.
  - intros [_ [H | H]]; discriminate H.
Defined.
